(** * The binwalk analyzer of AperiSolve: model and properties

    Shallow embedding of [aperisolve/analyzers/binwalk.py].  The analyzer
    runs two child processes, looks at the file system in between, removes
    a directory and reports one record to the result store.  All of this
    is modelled by explicit state passing over a [World] (file system, log
    of spawned processes, log of store writes) in a small state-and-exception
    monad [Py]; what the child processes and the operating system do is an
    arbitrary environment [Env]. *)

From stdpp Require Import base option list strings gmap.
From Stdlib Require Import ZArith Ascii String.

Local Open Scope string_scope.
Local Open Scope Z_scope.
Local Open Scope list_scope.

(** ** Python strings *)

Module PyStr.

(** The line feed, the separator of [split] and [join] in the analyzer. *)
Definition LF : ascii := ascii_of_nat 10.
Definition nl : string := String LF EmptyString.

(** Truth value of a [str]: every string but the empty one is true. *)
Definition truthy (s : string) : bool :=
  match s with
  | EmptyString => false
  | String _ _ => true
  end.

(** [s.split(c)] for a separator of one character: the pieces between
    the occurrences of [c]; never the empty list. *)
Fixpoint split (c : ascii) (s : string) : list string :=
  match s with
  | EmptyString => [EmptyString]
  | String a rest =>
      if Ascii.eqb a c then EmptyString :: split c rest
      else match split c rest with
           | [] => [String a EmptyString]
           | piece :: pieces => String a piece :: pieces
           end
  end.

(** [sep.join(l)]. *)
Fixpoint join (sep : string) (l : list string) : string :=
  match l with
  | [] => EmptyString
  | [x] => x
  | x :: rest => x +:+ sep +:+ join sep rest
  end.

(** [s.count(c)] for one character. *)
Fixpoint count (c : ascii) (s : string) : nat :=
  match s with
  | EmptyString => O
  | String a rest => (if Ascii.eqb a c then 1 else 0)%nat + count c rest
  end.

End PyStr.

(** ** Paths

    A [pathlib] path by its components.  The analyzer only takes the last
    component ([.name]) and appends one component that holds no separator
    ([/]). *)

Abbreviation Path := (list string) (only parsing).

Module PyPath.

Definition name (p : Path) : string := default EmptyString (last p).

Definition joinpath (p : Path) (component : string) : Path := p ++ [component].

(** [str(p)] of a relative path. *)
Definition render (p : Path) : string := PyStr.join "/" p.

End PyPath.

Infix "</>" := PyPath.joinpath (at level 40, left associativity).

(** ** Values handed to the result store *)

Inductive JVal :=
| JStr (s : string)
| JList (l : list string).

(** The inner dictionary of a record, [{"status": ..., ...}], and the
    record itself, [{"binwalk": {...}}]. *)
Abbreviation Fields := (gmap string JVal) (only parsing).
Abbreviation Record_ := (gmap string (gmap string JVal)) (only parsing).

(** ** Exceptions and child processes *)

Inductive ExcType := TimeoutExpired | OSError | OtherException.

(** An exception of a class deriving from [Exception], with its [str]. *)
Record PyException := mkExc { exc_type : ExcType; exc_str : string }.

Record CompletedProcess := mkCompleted {
  returncode : Z;
  stdout : string;
  stderr : string
}.

Inductive outcome (A : Type) :=
| Returns (a : A)
| Raises (e : PyException).
Arguments Returns {A} a.
Arguments Raises {A} e.

(** ** The world *)

Record World := mkWorld {
  fs : gset Path;                          (* the paths that exist *)
  spawned : list (list string * Path);     (* child processes: argv, cwd *)
  written : list (Path * Record_)          (* calls of update_data *)
}.

(** What the environment decides: the effect of a child process on the
    file system together with what [subprocess.run] gives back, and
    whether the removal of a tree fails. *)
Record Env := mkEnv {
  child : list string → Path → Z → gset Path → outcome CompletedProcess * gset Path;
  rmtree_fault : Path → gset Path → option PyException
}.

(** ** The monad of effects *)

Definition Py (A : Type) : Type := World → outcome A * World.

#[global] Instance Py_ret : MRet Py := λ A a w, (Returns a, w).

#[global] Instance Py_bind : MBind Py := λ A B f m w,
  match m w with
  | (Returns a, w') => f a w'
  | (Raises e, w') => (Raises e, w')
  end.

(** [try: body  except Exception as e: handler e]. *)
Definition try_except {A} (body : Py A) (handler : PyException → Py A) : Py A :=
  λ w, match body w with
       | (Returns a, w') => (Returns a, w')
       | (Raises e, w') => handler e w'
       end.

Section Effects.

Variable env : Env.

(** [subprocess.run(argv, cwd=cwd, capture_output=True, text=True,
    check=False, timeout=timeout)]. *)
Definition subprocess_run (argv : list string) (cwd : Path) (timeout : Z)
  : Py CompletedProcess := λ w,
  let '(r, fs') := child env argv cwd timeout (fs w) in
  (r, mkWorld fs' (spawned w ++ [(argv, cwd)]) (written w)).

(** [p.exists()]. *)
Definition path_exists (p : Path) : Py bool := λ w,
  (Returns (bool_decide (p ∈ fs w)), w).

(** The file system without [p] and everything below it. *)
Definition remove_tree (p : Path) (files : gset Path) : gset Path :=
  filter (λ q, ¬ p `prefix_of` q) files.

(** [shutil.rmtree(p)]: raises when [p] is missing or when the removal
    fails, in which case [p] itself is still there. *)
Definition shutil_rmtree (p : Path) : Py unit := λ w,
  if bool_decide (p ∈ fs w) then
    match rmtree_fault env p (fs w) with
    | Some e => (Raises e, w)
    | None => (Returns tt, mkWorld (remove_tree p (fs w)) (spawned w) (written w))
    end
  else
    (Raises (mkExc OSError
       ("[Errno 2] No such file or directory: '" +:+ PyPath.render p +:+ "'")), w).

End Effects.

(** Modelled from the spec: [update_data] of [aperisolve/analyzers/utils.py],
    which is not part of the sources at hand.  The spec gives it as
    [update_data(workingDir, record)], an atomic upsert into the result
    store whose merge semantics belong to the store; the model records the
    call, with its two arguments, in the log [written]. *)
Definition update_data (output_dir : Path) (record : Record_) : Py unit := λ w,
  (Returns tt, mkWorld (fs w) (spawned w) (written w ++ [(output_dir, record)])).

(** ** The analyzer *)

Definition binwalk_argv (image_name : string) : list string :=
  ["binwalk"; "-e"; "../" +:+ image_name; "--run-as=root"].

Definition sevenzip_argv : list string := ["7z"; "a"; "../binwalk.7z"; "*"].

Definition extracted_dir_of (input_img output_dir : Path) : Path :=
  output_dir </> ("_" +:+ PyPath.name input_img +:+ ".extracted").

(** Lines 55-62: the list [error_messages]. *)
Definition error_messages (binwalk_stderr : string) (extraction_occurred zip_exist : bool)
    (zip_stderr : string) : list string :=
  (if PyStr.truthy binwalk_stderr && negb extraction_occurred
   then ["Binwalk: " +:+ binwalk_stderr] else [])
  ++
  (if extraction_occurred && negb zip_exist
   then [if PyStr.truthy zip_stderr
         then "7z compression: " +:+ zip_stderr
         else "7z compression failed with no error output"]
   else []).

(** Lines 65-70. *)
Definition error_record (message : string) : Record_ :=
  {[ "binwalk" := {[ "status" := JStr "error"; "error" := JStr message ]} ]}.

(** Lines 74-81.  A [CompletedProcess] is always true as a condition, so
    [data.stdout.split("\n") if data else []] is the split. *)
Definition output_record (data : CompletedProcess) (zip_exist : bool) (output_dir : Path)
    : Record_ :=
  let fields : Fields :=
    {[ "status" := JStr "ok"; "output" := JList (PyStr.split PyStr.LF (stdout data)) ]} in
  {[ "binwalk" :=
       if zip_exist
       then <[ "download" := JStr ("/download/" +:+ PyPath.name output_dir +:+ "/binwalk") ]> fields
       else fields ]}.

Section Analyzer.

(** The time limit shared by the analyzers, a constant of [utils.py] that
    is not part of the sources at hand: a parameter. *)
Variable MAX_PENDING_TIME : Z.
Variable env : Env.

(** Lines 31-46: the archiving step, giving [(zip_exist, zip_stderr)]. *)
Definition archive_step (extracted_dir : Path) (extraction_occurred : bool)
  : Py (bool * string) :=
  if extraction_occurred then
    zip_data ← subprocess_run env sevenzip_argv extracted_dir MAX_PENDING_TIME;
    mret (returncode zip_data =? 0, stderr zip_data)
  else mret (false, EmptyString).

(** Lines 48-50. *)
Definition cleanup_step (extracted_dir : Path) : Py unit :=
  still_there ← path_exists extracted_dir;
  if (still_there : bool) then shutil_rmtree env extracted_dir else mret tt.

(** Lines 55-83: classification and the one write of the normal path. *)
Definition report_step (output_dir : Path) (data : CompletedProcess)
    (extraction_occurred zip_exist : bool) (zip_stderr : string) : Py unit :=
  match error_messages (stderr data) extraction_occurred zip_exist zip_stderr with
  | [] => update_data output_dir (output_record data zip_exist output_dir)
  | msgs => update_data output_dir (error_record (PyStr.join PyStr.nl msgs))
  end.

(** Lines 17-83: the body of the [try]. *)
Definition analyze_body (input_img output_dir : Path) : Py unit :=
  let image_name := PyPath.name input_img in
  let extracted_dir := extracted_dir_of input_img output_dir in
  data ← subprocess_run env (binwalk_argv image_name) output_dir MAX_PENDING_TIME;
  extraction_occurred ← path_exists extracted_dir;
  '(zip_exist, zip_stderr) ← archive_step extracted_dir extraction_occurred;
  cleanup_step extracted_dir;;
  report_step output_dir data extraction_occurred zip_exist zip_stderr.

(** Lines 10-87. *)
Definition analyze_binwalk (input_img output_dir : Path) : Py unit :=
  try_except (analyze_body input_img output_dir)
    (λ e, update_data output_dir (error_record (exc_str e))).

End Analyzer.

(** ** What a run is observed by *)

(** The record chosen by lines 64-83, joined message included. *)
Definition reported_record (output_dir : Path) (data : CompletedProcess)
    (extraction_occurred zip_exist : bool) (zip_stderr : string) : Record_ :=
  match error_messages (stderr data) extraction_occurred zip_exist zip_stderr with
  | [] => output_record data zip_exist output_dir
  | msgs => error_record (PyStr.join PyStr.nl msgs)
  end.

(** A field of the analyzer's entry: [record["binwalk"][key]]. *)
Definition field (record : Record_) (key : string) : option JVal :=
  entry ← record !! "binwalk"; entry !! key.

(** The calls of [update_data] made by one run started in [w]. *)
Definition records_written (MAX_PENDING_TIME : Z) (env : Env)
    (input_img output_dir : Path) (w : World) : list (Path * Record_) :=
  drop (List.length (written w))
       (written (analyze_binwalk MAX_PENDING_TIME env input_img output_dir w).2).

(** The child processes started by one run. *)
Definition processes_spawned (MAX_PENDING_TIME : Z) (env : Env)
    (input_img output_dir : Path) (w : World) : list (list string * Path) :=
  drop (List.length (spawned w))
       (spawned (analyze_binwalk MAX_PENDING_TIME env input_img output_dir w).2).

(** The file system left behind by one run. *)
Definition files_after (MAX_PENDING_TIME : Z) (env : Env)
    (input_img output_dir : Path) (w : World) : gset Path :=
  fs (analyze_binwalk MAX_PENDING_TIME env input_img output_dir w).2.

(** The exception, if any, that the removal of [extracted_dir] meets in
    the file system [files]: none when there is nothing to remove. *)
Definition cleanup_fault (env : Env) (extracted_dir : Path) (files : gset Path)
    : option PyException :=
  if bool_decide (extracted_dir ∈ files) then rmtree_fault env extracted_dir files else None.

(** The file system once lines 48-50 went through. *)
Definition cleaned (extracted_dir : Path) (files : gset Path) : gset Path :=
  if bool_decide (extracted_dir ∈ files) then remove_tree extracted_dir files else files.


(** The environment [env] with the exit code of the extraction tool
    replaced by [code]; everything else is as in [env]. *)
Definition with_binwalk_returncode (image_name : string) (code : Z) (env : Env) : Env :=
  mkEnv
    (λ argv cwd timeout files,
       let '(r, files') := child env argv cwd timeout files in
       (if bool_decide (argv = binwalk_argv image_name)
        then match r with
             | Returns data => Returns (mkCompleted code (stdout data) (stderr data))
             | Raises e => Raises e
             end
        else r, files'))
    (rmtree_fault env).

(** Whether a run started on the file system [files] gets to the archiving
    tool: the extraction tool returns and its directory is there. *)
Definition archive_attempted (MAX_PENDING_TIME : Z) (env : Env)
    (input_img output_dir : Path) (files : gset Path) : bool :=
  match child env (binwalk_argv (PyPath.name input_img)) output_dir MAX_PENDING_TIME files with
  | (Returns _, fs1) => bool_decide (extracted_dir_of input_img output_dir ∈ fs1)
  | (Raises _, _) => false
  end.

(** The file system as the child processes of a run leave it, before the
    analyzer removes anything. *)
Definition tools_leave (MAX_PENDING_TIME : Z) (env : Env)
    (input_img output_dir : Path) (files : gset Path) : gset Path :=
  match child env (binwalk_argv (PyPath.name input_img)) output_dir MAX_PENDING_TIME files with
  | (Returns _, fs1) =>
      if bool_decide (extracted_dir_of input_img output_dir ∈ fs1)
      then (child env sevenzip_argv (extracted_dir_of input_img output_dir)
              MAX_PENDING_TIME fs1).2
      else fs1
  | (Raises _, fs1) => fs1
  end.

(** Whether a run delivers an archive: the archiving tool is reached,
    returns with exit code 0, and the removal of the extraction directory
    meets no exception. *)
Definition archive_delivered (MAX_PENDING_TIME : Z) (env : Env)
    (input_img output_dir : Path) (files : gset Path) : bool :=
  match child env (binwalk_argv (PyPath.name input_img)) output_dir MAX_PENDING_TIME files with
  | (Returns _, fs1) =>
      bool_decide (extracted_dir_of input_img output_dir ∈ fs1) &&
      match child env sevenzip_argv (extracted_dir_of input_img output_dir)
              MAX_PENDING_TIME fs1 with
      | (Returns zip_data, fs2) =>
          (returncode zip_data =? 0) &&
          match cleanup_fault env (extracted_dir_of input_img output_dir) fs2 with
          | None => true
          | Some _ => false
          end
      | (Raises _, _) => false
      end
  | (Raises _, _) => false
  end.

(** Whether a run ends well: with an extraction directory, the archive is
    delivered; without one, the extraction tool returned with nothing on
    standard error. *)
Definition run_is_ok (MAX_PENDING_TIME : Z) (env : Env)
    (input_img output_dir : Path) (files : gset Path) : bool :=
  match child env (binwalk_argv (PyPath.name input_img)) output_dir MAX_PENDING_TIME files with
  | (Returns data, fs1) =>
      if bool_decide (extracted_dir_of input_img output_dir ∈ fs1)
      then archive_delivered MAX_PENDING_TIME env input_img output_dir files
      else negb (PyStr.truthy (stderr data))
  | (Raises _, _) => false
  end.

(** Where an exception of the body of the [try] comes from: the start or
    the time limit of either tool, or the removal of the extraction
    directory. *)
Inductive raised_by (MAX_PENDING_TIME : Z) (env : Env) (input_img output_dir : Path)
    (w : World) (e : PyException) : Prop :=
| by_extraction fs1 :
    child env (binwalk_argv (PyPath.name input_img)) output_dir MAX_PENDING_TIME (fs w)
      = (Raises e, fs1) →
    raised_by MAX_PENDING_TIME env input_img output_dir w e
| by_archiving data fs1 fs2 :
    child env (binwalk_argv (PyPath.name input_img)) output_dir MAX_PENDING_TIME (fs w)
      = (Returns data, fs1) →
    extracted_dir_of input_img output_dir ∈ fs1 →
    child env sevenzip_argv (extracted_dir_of input_img output_dir) MAX_PENDING_TIME fs1
      = (Raises e, fs2) →
    raised_by MAX_PENDING_TIME env input_img output_dir w e
| by_cleanup data fs1 zip_data fs2 :
    child env (binwalk_argv (PyPath.name input_img)) output_dir MAX_PENDING_TIME (fs w)
      = (Returns data, fs1) →
    extracted_dir_of input_img output_dir ∈ fs1 →
    child env sevenzip_argv (extracted_dir_of input_img output_dir) MAX_PENDING_TIME fs1
      = (Returns zip_data, fs2) →
    cleanup_fault env (extracted_dir_of input_img output_dir) fs2 = Some e →
    raised_by MAX_PENDING_TIME env input_img output_dir w e.

(** ** Concrete runs *)

Module Scenario.

(** The job directory and the submitted image, one level above it. *)
Definition job : Path := ["srv"; "results"; "3f2a"].
Definition img : Path := ["srv"; "results"; "cat.png"].
Definition xdir : Path := extracted_dir_of img job.

Definition w0 : World := mkWorld {[ ["srv"]; ["srv"; "results"]; job; img ]} [] [].

Definition MAX : Z := 600.

(** An environment by script: what [binwalk] gives back and whether it
    extracts, what [7z] gives back and whether it leaves an archive, and
    the fault of [rmtree]. *)
Definition scripted (bw : outcome CompletedProcess) (extracts : bool)
    (zp : outcome CompletedProcess) (archives : bool)
    (fault : option PyException) : Env :=
  mkEnv
    (λ argv cwd _ files,
       match argv with
       | "binwalk" :: _ =>
           (bw, if extracts
                then {[ cwd </> "_cat.png.extracted";
                        cwd </> "_cat.png.extracted" </> "29.zlib" ]} ∪ files
                else files)
       | _ =>
           (zp, if archives then {[ removelast cwd </> "binwalk.7z" ]} ∪ files else files)
       end)
    (λ _ _, fault).

Definition scan : string := "DECIMAL       HEXADECIMAL" +:+ PyStr.nl +:+ "0             0x0".

Definition bw_clean : CompletedProcess := mkCompleted 0 scan "".
Definition bw_noisy : CompletedProcess := mkCompleted 0 scan "WARNING: extractor exited early".
Definition bw_failed : CompletedProcess := mkCompleted 1 "" "binwalk: cannot open ../cat.png".
Definition zp_done : CompletedProcess := mkCompleted 0 "Everything is Ok" "".
Definition zp_quiet : CompletedProcess := mkCompleted 2 "" "".
Definition zp_timeout : PyException :=
  mkExc TimeoutExpired "Command '['7z', 'a', '../binwalk.7z', '*']' timed out after 600 seconds".

(** Nothing embedded, nothing on standard error. *)
Definition env_plain : Env := scripted (Returns bw_clean) false (Returns zp_done) false None.
(** The tool fails and extracts nothing. *)
Definition env_binwalk_fails : Env := scripted (Returns bw_failed) false (Returns zp_done) false None.
(** Extraction with a warning on standard error, archive written. *)
Definition env_archived : Env := scripted (Returns bw_noisy) true (Returns zp_done) true None.
(** Extraction, then [7z] exits 2 in silence, a partial archive left. *)
Definition env_7z_quiet : Env := scripted (Returns bw_clean) true (Returns zp_quiet) true None.
(** Extraction, then [7z] exceeds the time allowed. *)
Definition env_7z_timeout : Env := scripted (Returns bw_clean) true (Raises zp_timeout) false None.

(** The file system as the extraction tool leaves it, and as the archiving
    tool leaves it after that. *)
Definition extracted (env : Env) : gset Path :=
  (child env (binwalk_argv (PyPath.name img)) job MAX (fs w0)).2.
Definition archived (env : Env) : gset Path :=
  (child env sevenzip_argv xdir MAX (extracted env)).2.

(** [binwalk] is not installed. *)
Definition bw_missing : PyException :=
  mkExc OSError "[Errno 2] No such file or directory: 'binwalk'".
Definition env_binwalk_missing : Env :=
  scripted (Raises bw_missing) false (Returns zp_done) false None.

End Scenario.

(** ** Tactics *)

(** One step of a run: unfold the effects and project the world. *)
Ltac py_unfold :=
  repeat progress
    (unfold analyze_binwalk, try_except, analyze_body, archive_step, cleanup_step,
       subprocess_run, path_exists, shutil_rmtree, update_data,
       mbind, mret, Py_bind, Py_ret;
     cbn [fs spawned written fst snd]).

(** Closed goals about the concrete runs: equations by conversion,
    decidable facts by evaluation. *)
Ltac by_evaluation :=
  lazymatch goal with
  | |- _ = _ => reflexivity
  | |- _ => compute_done
  end.

(** ** Symbolic execution of a run *)

Section Paths.

Variable MAX_PENDING_TIME : Z.
Variable env : Env.
Variables input_img output_dir : Path.
Variable w : World.

Let image_name := PyPath.name input_img.
Let extracted_dir := extracted_dir_of input_img output_dir.
Let run := analyze_binwalk MAX_PENDING_TIME env input_img output_dir.
Let extraction := (binwalk_argv image_name, output_dir).
Let archiving := (sevenzip_argv, extracted_dir).

Lemma report_step_record data extraction_occurred zip_exist zip_stderr w1 :
  report_step output_dir data extraction_occurred zip_exist zip_stderr w1 =
  update_data output_dir
    (reported_record output_dir data extraction_occurred zip_exist zip_stderr) w1.
Proof.
  unfold report_step, reported_record.
  by destruct (error_messages _ _ _ _).
Qed.

(** The extraction tool cannot be started or runs out of time. *)
Lemma run_extraction_raises e fs1 :
  child env (binwalk_argv image_name) output_dir MAX_PENDING_TIME (fs w) = (Raises e, fs1) →
  run w = (Returns tt,
           mkWorld fs1 (spawned w ++ [extraction])
                   (written w ++ [(output_dir, error_record (exc_str e))])).
Proof.
  intros Hbw. subst run extraction image_name. py_unfold.
  by rewrite Hbw.
Qed.

(** The extraction tool returns and leaves no extraction directory. *)
Lemma run_nothing_extracted data fs1 :
  child env (binwalk_argv image_name) output_dir MAX_PENDING_TIME (fs w) = (Returns data, fs1) →
  extracted_dir ∉ fs1 →
  run w = (Returns tt,
           mkWorld fs1 (spawned w ++ [extraction])
                   (written w ++ [(output_dir, reported_record output_dir data false false "")])).
Proof.
  intros Hbw Hno. subst run extraction image_name extracted_dir.
  py_unfold. rewrite Hbw. py_unfold.
  rewrite !bool_decide_eq_false_2 by done. py_unfold.
  rewrite report_step_record. reflexivity.
Qed.

(** The extraction directory is there and the archiving tool cannot be
    started or runs out of time: nothing is removed. *)
Lemma run_archiving_raises data fs1 e fs2 :
  child env (binwalk_argv image_name) output_dir MAX_PENDING_TIME (fs w) = (Returns data, fs1) →
  extracted_dir ∈ fs1 →
  child env sevenzip_argv extracted_dir MAX_PENDING_TIME fs1 = (Raises e, fs2) →
  run w = (Returns tt,
           mkWorld fs2 (spawned w ++ [extraction; archiving])
                   (written w ++ [(output_dir, error_record (exc_str e))])).
Proof.
  intros Hbw Hdir Hzip. subst run extraction archiving image_name extracted_dir.
  py_unfold. rewrite Hbw. py_unfold.
  rewrite bool_decide_eq_true_2 by done. py_unfold.
  rewrite Hzip. py_unfold.
  by rewrite <- app_assoc.
Qed.

(** Both tools return and the removal of the extraction directory fails. *)
Lemma run_cleanup_raises data fs1 zip_data fs2 e :
  child env (binwalk_argv image_name) output_dir MAX_PENDING_TIME (fs w) = (Returns data, fs1) →
  extracted_dir ∈ fs1 →
  child env sevenzip_argv extracted_dir MAX_PENDING_TIME fs1 = (Returns zip_data, fs2) →
  cleanup_fault env extracted_dir fs2 = Some e →
  run w = (Returns tt,
           mkWorld fs2 (spawned w ++ [extraction; archiving])
                   (written w ++ [(output_dir, error_record (exc_str e))])).
Proof.
  intros Hbw Hdir Hzip Hfault. subst run extraction archiving image_name extracted_dir.
  unfold cleanup_fault in Hfault.
  py_unfold. rewrite Hbw. py_unfold.
  rewrite bool_decide_eq_true_2 by done. py_unfold.
  rewrite Hzip. py_unfold.
  destruct (bool_decide _) eqn:Hstill; [|done]. py_unfold.
  rewrite Hstill, Hfault. py_unfold. by rewrite <- app_assoc.
Qed.

(** Both tools return and the extraction directory is removed. *)
Lemma run_archived data fs1 zip_data fs2 :
  child env (binwalk_argv image_name) output_dir MAX_PENDING_TIME (fs w) = (Returns data, fs1) →
  extracted_dir ∈ fs1 →
  child env sevenzip_argv extracted_dir MAX_PENDING_TIME fs1 = (Returns zip_data, fs2) →
  cleanup_fault env extracted_dir fs2 = None →
  run w = (Returns tt,
           mkWorld (cleaned extracted_dir fs2) (spawned w ++ [extraction; archiving])
                   (written w ++
                      [(output_dir,
                        reported_record output_dir data true (returncode zip_data =? 0)
                                        (stderr zip_data))])).
Proof.
  intros Hbw Hdir Hzip Hfault. subst run extraction archiving image_name extracted_dir.
  unfold cleanup_fault in Hfault. unfold cleaned.
  py_unfold. rewrite Hbw. py_unfold.
  rewrite bool_decide_eq_true_2 by done. py_unfold.
  rewrite Hzip. py_unfold.
  destruct (bool_decide _) eqn:Hstill; py_unfold; [rewrite Hstill, Hfault|];
    rewrite report_step_record; py_unfold; by rewrite <- app_assoc.
Qed.

End Paths.

(** ** Records and their fields *)

Lemma error_record_fields message :
  field (error_record message) "status" = Some (JStr "error") ∧
  field (error_record message) "error" = Some (JStr message) ∧
  field (error_record message) "output" = None ∧
  field (error_record message) "download" = None.
Proof. by vm_compute. Qed.

Lemma output_record_fields data zip_exist output_dir :
  field (output_record data zip_exist output_dir) "status" = Some (JStr "ok") ∧
  field (output_record data zip_exist output_dir) "output"
    = Some (JList (PyStr.split PyStr.LF (stdout data))) ∧
  field (output_record data zip_exist output_dir) "error" = None ∧
  field (output_record data zip_exist output_dir) "download"
    = (if zip_exist
       then Some (JStr ("/download/" +:+ PyPath.name output_dir +:+ "/binwalk"))
       else None).
Proof.
  unfold field, output_record. rewrite lookup_singleton_eq. cbn [mbind option_bind].
  destruct zip_exist; repeat split; by simplify_map_eq.
Qed.

Lemma truthy_spec s : PyStr.truthy s = true ↔ s ≠ "".
Proof. destruct s; cbn; split; (done || congruence). Qed.

Lemma truthy_empty s : PyStr.truthy s = false ↔ s = "".
Proof. destruct s; cbn; split; (done || congruence). Qed.

(** The four rows of the classification. *)
Lemma reported_nothing output_dir data :
  stderr data = "" →
  reported_record output_dir data false false "" = output_record data false output_dir.
Proof. intros Hquiet. unfold reported_record, error_messages. by rewrite Hquiet. Qed.

Lemma reported_extraction_error output_dir data :
  stderr data ≠ "" →
  reported_record output_dir data false false ""
  = error_record ("Binwalk: " +:+ stderr data).
Proof.
  intros Hloud. apply truthy_spec in Hloud.
  unfold reported_record, error_messages. by rewrite Hloud.
Qed.

Lemma reported_archive output_dir data zip_stderr :
  reported_record output_dir data true true zip_stderr = output_record data true output_dir.
Proof. unfold reported_record, error_messages. by rewrite andb_false_r. Qed.

Lemma reported_archive_error output_dir data zip_stderr :
  reported_record output_dir data true false zip_stderr
  = error_record (if PyStr.truthy zip_stderr
                  then "7z compression: " +:+ zip_stderr
                  else "7z compression failed with no error output").
Proof. unfold reported_record, error_messages. by rewrite andb_false_r. Qed.

(** What a finished run shows to the three observations. *)
Lemma observe_run MAX_PENDING_TIME env input_img output_dir w files procs recs :
  analyze_binwalk MAX_PENDING_TIME env input_img output_dir w
  = (Returns tt, mkWorld files (spawned w ++ procs) (written w ++ recs)) →
  files_after MAX_PENDING_TIME env input_img output_dir w = files ∧
  processes_spawned MAX_PENDING_TIME env input_img output_dir w = procs ∧
  records_written MAX_PENDING_TIME env input_img output_dir w = recs.
Proof.
  intros Hrun. unfold files_after, processes_spawned, records_written.
  rewrite Hrun. cbn [snd fs spawned written]. by rewrite !drop_app_length.
Qed.

Lemma remove_tree_gone p files : p ∉ remove_tree p files.
Proof. unfold remove_tree. rewrite elem_of_filter. intros [Hnot _]. by apply Hnot. Qed.

Lemma cleaned_gone p files : p ∉ cleaned p files.
Proof.
  unfold cleaned. case_bool_decide; [apply remove_tree_gone | done].
Qed.

Lemma tools_differ image_name : sevenzip_argv ≠ binwalk_argv image_name.
Proof. discriminate. Qed.

(** ** Every run: outcome of the body of the [try] *)

Section Body.

Variable MAX_PENDING_TIME : Z.
Variable env : Env.
Variables input_img output_dir : Path.

Abbreviation extracted_dir := (extracted_dir_of input_img output_dir).
Abbreviation extraction := (binwalk_argv (PyPath.name input_img)).

(** The body either returns, having written one record and with the
    extraction directory gone, or raises, having written nothing. *)
Lemma analyze_body_outcome w :
  match analyze_body MAX_PENDING_TIME env input_img output_dir w with
  | (Returns _, w') =>
      (∃ r, written w' = written w ++ [(output_dir, r)]) ∧ extracted_dir ∉ fs w'
  | (Raises e, w') =>
      written w' = written w ∧ raised_by MAX_PENDING_TIME env input_img output_dir w e
  end.
Proof.
  py_unfold.
  destruct (child env _ output_dir _ _) as [[data|e] fs1] eqn:Hbw; py_unfold;
    [|by eauto using raised_by].
  destruct (decide (extracted_dir_of input_img output_dir ∈ fs1)) as [Hdir|Hdir].
  - rewrite (bool_decide_eq_true_2 _ Hdir). py_unfold.
    destruct (child env sevenzip_argv _ _ _) as [[zip_data|e] fs2] eqn:Hzip; py_unfold;
      [|by eauto using raised_by].
    destruct (decide (extracted_dir_of input_img output_dir ∈ fs2)) as [Hstill|Hstill].
    + rewrite !(bool_decide_eq_true_2 _ Hstill). py_unfold.
      destruct (rmtree_fault env _ fs2) as [e|] eqn:Hfault; py_unfold.
      * split; [done|]. eapply by_cleanup; eauto.
        unfold cleanup_fault. by rewrite (bool_decide_eq_true_2 _ Hstill).
      * rewrite report_step_record. py_unfold. split; [by eauto|].
        apply remove_tree_gone.
    + rewrite !(bool_decide_eq_false_2 _ Hstill). py_unfold.
      rewrite report_step_record. py_unfold. by eauto.
  - rewrite !(bool_decide_eq_false_2 _ Hdir). py_unfold.
    rewrite report_step_record. py_unfold. by eauto.
Qed.

End Body.

(** ** Properties of the analyzer *)

Section Claims.

Variable MAX_PENDING_TIME : Z.
Variable env : Env.
Variables input_img output_dir : Path.
Variable w : World.

Abbreviation xdir := (extracted_dir_of input_img output_dir).
Abbreviation binwalk_child :=
  (child env (binwalk_argv (PyPath.name input_img)) output_dir MAX_PENDING_TIME).
Abbreviation sevenzip_child :=
  (child env sevenzip_argv (extracted_dir_of input_img output_dir) MAX_PENDING_TIME).

(** X1: on every run that meets no exception the extraction directory is
    gone when the analyzer returns. *)
Lemma extraction_directory_removed_without_exception w' :
  analyze_body MAX_PENDING_TIME env input_img output_dir w = (Returns tt, w') →
  analyze_binwalk MAX_PENDING_TIME env input_img output_dir w = (Returns tt, w') ∧
  xdir ∉ files_after MAX_PENDING_TIME env input_img output_dir w.
Proof.
  intros Hbody.
  pose proof (analyze_body_outcome MAX_PENDING_TIME env input_img output_dir w) as Hout.
  unfold files_after, analyze_binwalk, try_except. rewrite Hbody in Hout |- *.
  by destruct Hout.
Qed.

(** The extraction tool itself runs out of time after it made the
    directory: the directory stays as well. *)
Lemma extraction_directory_left_when_extraction_raises e fs1 :
  binwalk_child (fs w) = (Raises e, fs1) →
  xdir ∈ fs1 →
  xdir ∈ files_after MAX_PENDING_TIME env input_img output_dir w.
Proof.
  intros Hbw Hdir.
  pose proof (run_extraction_raises _ _ _ _ _ _ _ Hbw) as Hrun.
  by apply observe_run in Hrun as (-> & _).
Qed.

(** C1 (the code departs from it): the removal of the extraction directory
    is the statement after the two child processes, inside the [try].  When
    the extraction tool has made the directory and the archiving tool raises
    (its time limit, or it cannot be started) leaving the directory in
    place, the handler writes the error record and the analyzer returns
    with the extraction directory still there. *)
Theorem extraction_directory_left_when_archiving_raises data fs1 e fs2 :
  binwalk_child (fs w) = (Returns data, fs1) →
  xdir ∈ fs1 →
  sevenzip_child fs1 = (Raises e, fs2) →
  xdir ∈ fs2 →
  (analyze_binwalk MAX_PENDING_TIME env input_img output_dir w).1 = Returns tt ∧
  xdir ∈ files_after MAX_PENDING_TIME env input_img output_dir w ∧
  records_written MAX_PENDING_TIME env input_img output_dir w
  = [(output_dir, error_record (exc_str e))].
Proof.
  intros Hbw Hdir Hzip Hstill.
  pose proof (run_archiving_raises _ _ _ _ _ _ _ _ _ Hbw Hdir Hzip) as Hrun.
  destruct (observe_run _ _ _ _ _ _ _ _ Hrun) as (-> & _ & ->).
  by rewrite Hrun.
Qed.

(** C2: the analyzer always returns, never raises, and makes exactly one
    call of [update_data], for its own [output_dir]; when the body of the
    [try] raised an exception [e] (from the start or the time limit of a
    child process or from the removal of the directory, see [raised_by]),
    the record written is the error record carrying [str(e)]. *)
Theorem analyze_binwalk_never_raises_and_writes_once :
  (analyze_binwalk MAX_PENDING_TIME env input_img output_dir w).1 = Returns tt ∧
  ∃ r, records_written MAX_PENDING_TIME env input_img output_dir w = [(output_dir, r)] ∧
       written (analyze_binwalk MAX_PENDING_TIME env input_img output_dir w).2
         = written w ++ [(output_dir, r)] ∧
       ∀ e w1, analyze_body MAX_PENDING_TIME env input_img output_dir w = (Raises e, w1) →
               raised_by MAX_PENDING_TIME env input_img output_dir w e ∧
               r = error_record (exc_str e).
Proof.
  pose proof (analyze_body_outcome MAX_PENDING_TIME env input_img output_dir w) as Hout.
  unfold records_written, analyze_binwalk, try_except.
  destruct (analyze_body _ _ _ _ w) as [[[]|e] w1]; cbn [fst snd].
  - destruct Hout as [[r Hr] _]. split; [done|]. exists r.
    rewrite Hr, drop_app_length. by repeat split.
  - destruct Hout as [Hsame Hsrc]. unfold update_data; cbn [fst snd written].
    split; [done|]. exists (error_record (exc_str e)).
    rewrite Hsame, drop_app_length. repeat split; naive_solver.
Qed.

(** C3, as amended: when the extraction directory was produced, the
    archiving tool exits non-zero with nothing on standard error, and the
    directory is removed without an exception, the record has status
    [error] and its message is exactly the fixed text
    [7z compression failed with no error output]; it is not the tag
    followed by the empty text. *)
Theorem quiet_archiving_failure_reports_fixed_text data fs1 zip_data fs2 :
  binwalk_child (fs w) = (Returns data, fs1) →
  xdir ∈ fs1 →
  sevenzip_child fs1 = (Returns zip_data, fs2) →
  returncode zip_data ≠ 0 →
  stderr zip_data = "" →
  cleanup_fault env xdir fs2 = None →
  ∃ r, records_written MAX_PENDING_TIME env input_img output_dir w = [(output_dir, r)] ∧
       field r "status" = Some (JStr "error") ∧
       field r "error" = Some (JStr "7z compression failed with no error output") ∧
       field r "error" ≠ Some (JStr ("7z compression: " +:+ stderr zip_data)).
Proof.
  intros Hbw Hdir Hzip Hcode Hquiet Hclean.
  pose proof (run_archived _ _ _ _ _ _ _ _ _ Hbw Hdir Hzip Hclean) as Hrun.
  apply observe_run in Hrun as (_ & _ & ->).
  apply Z.eqb_neq in Hcode. rewrite Hcode, reported_archive_error, Hquiet. cbn [PyStr.truthy].
  eexists; split; [done|].
  destruct (error_record_fields "7z compression failed with no error output")
    as (-> & -> & _).
  by repeat split.
Qed.


(** C5: when the extraction tool returns without an extraction directory
    and with text on standard error, the record has status [error] and its
    message is the tag [Binwalk: ] followed by that text, unchanged. *)
Theorem extraction_error_reports_tagged_stderr data fs1 :
  binwalk_child (fs w) = (Returns data, fs1) →
  xdir ∉ fs1 →
  stderr data ≠ "" →
  ∃ r, records_written MAX_PENDING_TIME env input_img output_dir w = [(output_dir, r)] ∧
       field r "status" = Some (JStr "error") ∧
       field r "error" = Some (JStr ("Binwalk: " +:+ stderr data)).
Proof.
  intros Hbw Hdir Hloud.
  pose proof (run_nothing_extracted _ _ _ _ _ _ _ Hbw Hdir) as Hrun.
  apply observe_run in Hrun as (_ & _ & ->).
  rewrite reported_extraction_error by done.
  eexists; split; [done|].
  by destruct (error_record_fields ("Binwalk: " +:+ stderr data)) as (-> & -> & _).
Qed.

(** C6: when the extraction tool returns without an extraction directory
    and with nothing on standard error, the record has status [ok], its
    output is the standard output of the tool split at the line feeds (the
    one empty line when there is no output), and it has no [download] key. *)
Theorem plain_scan_reports_output_without_download data fs1 :
  binwalk_child (fs w) = (Returns data, fs1) →
  xdir ∉ fs1 →
  stderr data = "" →
  ∃ r, records_written MAX_PENDING_TIME env input_img output_dir w = [(output_dir, r)] ∧
       field r "status" = Some (JStr "ok") ∧
       field r "output" = Some (JList (PyStr.split PyStr.LF (stdout data))) ∧
       field r "download" = None.
Proof.
  intros Hbw Hdir Hquiet.
  pose proof (run_nothing_extracted _ _ _ _ _ _ _ Hbw Hdir) as Hrun.
  apply observe_run in Hrun as (_ & _ & ->).
  rewrite reported_nothing by done.
  eexists; split; [done|].
  by destruct (output_record_fields data false output_dir) as (-> & -> & _ & ->).
Qed.


(** C8: once the extraction tool has returned, the archiving tool is
    started exactly when the extraction directory exists at that moment;
    and when it returns, the flag [zip_exist] is the test of its exit code
    against 0: with any other exit code the record has status [error] and
    no download reference, whatever the archiving tool left in the file
    system. *)
Theorem archiving_runs_iff_extracted_and_succeeds_iff_exit_zero data fs1 :
  binwalk_child (fs w) = (Returns data, fs1) →
  ((sevenzip_argv, xdir) ∈ processes_spawned MAX_PENDING_TIME env input_img output_dir w ↔ xdir ∈ fs1) ∧
  ∀ zip_data fs2,
    xdir ∈ fs1 →
    sevenzip_child fs1 = (Returns zip_data, fs2) →
    (∀ w1, fs w1 = fs1 →
       (archive_step MAX_PENDING_TIME env xdir true w1).1
       = Returns (bool_decide (returncode zip_data = 0), stderr zip_data)) ∧
    (returncode zip_data ≠ 0 →
       ∃ r, records_written MAX_PENDING_TIME env input_img output_dir w = [(output_dir, r)] ∧
            field r "status" = Some (JStr "error") ∧
            field r "download" = None).
Proof.
  intros Hbw. split.
  - destruct (decide (xdir ∈ fs1)) as [Hdir|Hdir].
    + split; [done|intros _].
      destruct (sevenzip_child fs1) as [[zip_data|e] fs2] eqn:Hzip.
      * destruct (cleanup_fault env xdir fs2) as [e|] eqn:Hclean.
        -- pose proof (run_cleanup_raises _ _ _ _ _ _ _ _ _ _ Hbw Hdir Hzip Hclean) as Hrun.
           apply observe_run in Hrun as (_ & -> & _). set_solver.
        -- pose proof (run_archived _ _ _ _ _ _ _ _ _ Hbw Hdir Hzip Hclean) as Hrun.
           apply observe_run in Hrun as (_ & -> & _). set_solver.
      * pose proof (run_archiving_raises _ _ _ _ _ _ _ _ _ Hbw Hdir Hzip) as Hrun.
        apply observe_run in Hrun as (_ & -> & _). set_solver.
    + pose proof (run_nothing_extracted _ _ _ _ _ _ _ Hbw Hdir) as Hrun.
      apply observe_run in Hrun as (_ & -> & _).
      split; [|done]. intros Hin%list_elem_of_singleton.
      assert (sevenzip_argv = binwalk_argv (PyPath.name input_img)) as Hargv
        by congruence.
      by destruct (tools_differ _ Hargv).
  - intros zip_data fs2 Hdir Hzip. split.
    + intros w1 <-. unfold archive_step. py_unfold. rewrite Hzip. cbn [fst].
      do 2 f_equal. destruct (Z.eqb_spec (returncode zip_data) 0) as [Hz|Hz].
      * by rewrite bool_decide_eq_true_2.
      * by rewrite bool_decide_eq_false_2.
    + intros Hcode.
      destruct (cleanup_fault env xdir fs2) as [e|] eqn:Hclean.
      * pose proof (run_cleanup_raises _ _ _ _ _ _ _ _ _ _ Hbw Hdir Hzip Hclean) as Hrun.
        apply observe_run in Hrun as (_ & _ & ->).
        eexists; split; [done|].
        by destruct (error_record_fields (exc_str e)) as (-> & _ & _ & ->).
      * pose proof (run_archived _ _ _ _ _ _ _ _ _ Hbw Hdir Hzip Hclean) as Hrun.
        apply observe_run in Hrun as (_ & _ & ->).
        apply Z.eqb_neq in Hcode. rewrite Hcode, reported_archive_error.
        eexists; split; [done|].
        by destruct (error_record_fields
                       (if PyStr.truthy (stderr zip_data)
                        then "7z compression: " +:+ stderr zip_data
                        else "7z compression failed with no error output"))
          as (-> & _ & _ & ->).
Qed.

(** C9: the two conditions under which the classification appends a
    message never hold together, so [error_messages] has at most one
    element, and the record written by the classification is the ok record
    or the error record of that one message by itself: the join with the
    line feed has nothing to join. *)
Theorem classification_has_one_message data extraction_occurred zip_exist zip_stderr w1 :
  (PyStr.truthy (stderr data) && negb extraction_occurred)
    && (extraction_occurred && negb zip_exist) = false ∧
  (List.length (error_messages (stderr data) extraction_occurred zip_exist zip_stderr)
     ≤ 1)%nat ∧
  report_step output_dir data extraction_occurred zip_exist zip_stderr w1
  = update_data output_dir
      (match error_messages (stderr data) extraction_occurred zip_exist zip_stderr with
       | [] => output_record data zip_exist output_dir
       | message :: _ => error_record message
       end) w1.
Proof.
  rewrite report_step_record. unfold reported_record, error_messages.
  destruct (PyStr.truthy (stderr data)), extraction_occurred, zip_exist;
    cbn [andb negb app List.length PyStr.join]; repeat split; lia.
Qed.


End Claims.

(** ** Further properties of a run *)

(** The five ways through a run, each with the final state it ends in. *)
Ltac run_cases MAX env i o w :=
  let xd := constr:(extracted_dir_of i o) in
  destruct (child env (binwalk_argv (PyPath.name i)) o MAX (fs w))
    as [[data|e] fs1] eqn:Hbw;
  [ destruct (decide (xd ∈ fs1)) as [Hdir|Hdir];
    [ destruct (child env sevenzip_argv xd MAX fs1) as [[zip_data|e] fs2] eqn:Hzip;
      [ destruct (cleanup_fault env xd fs2) as [e|] eqn:Hclean;
        [ pose proof (run_cleanup_raises _ _ _ _ _ _ _ _ _ _ Hbw Hdir Hzip Hclean) as Hrun
        | pose proof (run_archived _ _ _ _ _ _ _ _ _ Hbw Hdir Hzip Hclean) as Hrun ]
      | pose proof (run_archiving_raises _ _ _ _ _ _ _ _ _ Hbw Hdir Hzip) as Hrun ]
    | pose proof (run_nothing_extracted _ _ _ _ _ _ _ Hbw Hdir) as Hrun ]
  | pose proof (run_extraction_raises _ _ _ _ _ _ _ Hbw) as Hrun ];
  match goal with
  | Hrun : analyze_binwalk _ _ _ _ _ = _ |- _ =>
      apply observe_run in Hrun as (Hfiles & Hprocs & Hrecs)
  end.

Lemma split_nonempty c s : PyStr.split c s ≠ [].
Proof.
  destruct s as [|a rest]; cbn; [done|].
  destruct (Ascii.eqb a c); [done|]. by destruct (PyStr.split c rest).
Qed.

Lemma join_cons sep x l :
  l ≠ [] → PyStr.join sep (x :: l) = x +:+ sep +:+ PyStr.join sep l.
Proof. by destruct l. Qed.

Lemma join_split c s : PyStr.join (String c EmptyString) (PyStr.split c s) = s.
Proof.
  induction s as [|a rest IH]; [done|]. cbn [PyStr.split].
  destruct (Ascii.eqb_spec a c) as [->|Hne].
  - rewrite join_cons by apply split_nonempty. cbn. by rewrite IH.
  - pose proof (split_nonempty c rest) as Hne'.
    destruct (PyStr.split c rest) as [|piece pieces]; [done|].
    destruct pieces as [|piece' pieces]; cbn in IH |- *; by rewrite <- IH.
Qed.

Lemma split_length c s : List.length (PyStr.split c s) = S (PyStr.count c s).
Proof.
  induction s as [|a rest IH]; [done|]. cbn [PyStr.split PyStr.count].
  destruct (Ascii.eqb a c); cbn [List.length]; [by rewrite IH|].
  pose proof (split_nonempty c rest) as Hne.
  by destruct (PyStr.split c rest).
Qed.

Lemma split_pieces c s : Forall (λ piece, PyStr.count c piece = O) (PyStr.split c s).
Proof.
  induction s as [|a rest IH]; [by repeat constructor|]. cbn [PyStr.split].
  destruct (Ascii.eqb a c) eqn:Hac; [by constructor|].
  pose proof (split_nonempty c rest) as Hne.
  destruct (PyStr.split c rest) as [|piece pieces]; [done|].
  inversion IH as [|? ? Hpiece Hpieces]; subst. constructor; [|done].
  cbn [PyStr.count]. by rewrite Hac.
Qed.

Lemma archive_is_outside_the_extraction_tree input_img output_dir :
  ¬ extracted_dir_of input_img output_dir `prefix_of` output_dir </> "binwalk.7z".
Proof.
  unfold extracted_dir_of, PyPath.joinpath. intros Hpre%prefix_app_inv.
  destruct Hpre as [k Hk]. by injection Hk.
Qed.

Section Further.

Variable MAX_PENDING_TIME : Z.
Variable env : Env.
Variables input_img output_dir : Path.
Variable w : World.

Abbreviation xdir := (extracted_dir_of input_img output_dir).
Abbreviation binwalk_child :=
  (child env (binwalk_argv (PyPath.name input_img)) output_dir MAX_PENDING_TIME).
Abbreviation sevenzip_child :=
  (child env sevenzip_argv (extracted_dir_of input_img output_dir) MAX_PENDING_TIME).

(** X2: when the call of the extraction tool raises (it cannot be started,
    or its time limit), the archiving tool is never started, nothing is
    removed, and the one record written is the error record with the text
    of the exception. *)
Theorem failed_extraction_ends_the_run e fs1 :
  binwalk_child (fs w) = (Raises e, fs1) →
  processes_spawned MAX_PENDING_TIME env input_img output_dir w = [(binwalk_argv (PyPath.name input_img), output_dir)] ∧
  files_after MAX_PENDING_TIME env input_img output_dir w = fs1 ∧
  ∃ r, records_written MAX_PENDING_TIME env input_img output_dir w = [(output_dir, r)] ∧
       field r "status" = Some (JStr "error") ∧
       field r "error" = Some (JStr (exc_str e)) ∧
       field r "output" = None ∧
       field r "download" = None.
Proof.
  intros Hbw.
  pose proof (run_extraction_raises _ _ _ _ _ _ _ Hbw) as Hrun.
  apply observe_run in Hrun as (-> & -> & ->).
  do 2 (split; [done|]). eexists; split; [done|].
  apply error_record_fields.
Qed.


(** X4: the analyzer itself creates no path and removes none outside the
    extraction directory: what exists after a run existed when the last
    child process ended, and every path left by the child processes that
    is not the extraction directory or below it is still there, the
    archive [output_dir/binwalk.7z] among them. *)
Theorem analyzer_removes_only_the_extraction_tree :
  files_after MAX_PENDING_TIME env input_img output_dir w ⊆ tools_leave MAX_PENDING_TIME env input_img output_dir (fs w) ∧
  (∀ q, q ∈ tools_leave MAX_PENDING_TIME env input_img output_dir (fs w) → ¬ xdir `prefix_of` q →
        q ∈ files_after MAX_PENDING_TIME env input_img output_dir w) ∧
  (output_dir </> "binwalk.7z" ∈ tools_leave MAX_PENDING_TIME env input_img output_dir (fs w) →
   output_dir </> "binwalk.7z" ∈ files_after MAX_PENDING_TIME env input_img output_dir w).
Proof.
  assert (files_after MAX_PENDING_TIME env input_img output_dir w ⊆ tools_leave MAX_PENDING_TIME env input_img output_dir (fs w) ∧
          ∀ q, q ∈ tools_leave MAX_PENDING_TIME env input_img output_dir (fs w) → ¬ xdir `prefix_of` q →
               q ∈ files_after MAX_PENDING_TIME env input_img output_dir w) as [Hsub Hkeep].
  { unfold tools_leave.
    run_cases MAX_PENDING_TIME env input_img output_dir w; rewrite Hfiles;
      rewrite ?(bool_decide_eq_true_2 _ Hdir), ?(bool_decide_eq_false_2 _ Hdir);
      cbn [snd]; try done.
    unfold cleaned, remove_tree. case_bool_decide; [|done].
    split; [by apply elem_of_subseteq; intros q [_ Hq]%elem_of_filter|].
    intros q Hq Hout. by apply elem_of_filter. }
  repeat split; [done..|].
  intros Harchive. apply Hkeep; [done|]. apply archive_is_outside_the_extraction_tree.
Qed.

(** X5: a run starts the extraction tool first, in [output_dir] and on
    [../<image name>], and after it at most the archiving tool, in the
    extraction directory; no other process is started, and the archiving
    tool is not started when the extraction tool raised. *)
Theorem processes_of_a_run :
  processes_spawned MAX_PENDING_TIME env input_img output_dir w
  = (binwalk_argv (PyPath.name input_img), output_dir)
    :: (if archive_attempted MAX_PENDING_TIME env input_img output_dir (fs w)
        then [(sevenzip_argv, xdir)] else []).
Proof.
  unfold archive_attempted.
  run_cases MAX_PENDING_TIME env input_img output_dir w; rewrite Hprocs;
    by rewrite ?(bool_decide_eq_true_2 _ Hdir), ?(bool_decide_eq_false_2 _ Hdir).
Qed.

(** X6: the record of every run has the one key [binwalk], and its entry is
    of one of two shapes: status [ok] with an output and no error message,
    or status [error] with an error message and neither output nor
    download reference. *)
Theorem record_is_ok_or_error :
  ∃ r, records_written MAX_PENDING_TIME env input_img output_dir w = [(output_dir, r)] ∧
       dom r = {[ "binwalk" ]} ∧
       ((field r "status" = Some (JStr "ok") ∧
         is_Some (field r "output") ∧
         field r "error" = None)
        ∨
        (field r "status" = Some (JStr "error") ∧
         is_Some (field r "error") ∧
         field r "output" = None ∧
         field r "download" = None)).
Proof.
  assert (∀ r : gmap string (gmap string JVal),
            (∃ m, r = error_record m) ∨ (∃ data z, r = output_record data z output_dir) →
            dom r = {[ "binwalk" ]} ∧
            ((field r "status" = Some (JStr "ok") ∧ is_Some (field r "output") ∧
              field r "error" = None)
             ∨ (field r "status" = Some (JStr "error") ∧ is_Some (field r "error") ∧
                field r "output" = None ∧ field r "download" = None))) as Hshape.
  { intros r [[m ->]|(data & z & ->)].
    - split; [unfold error_record; by rewrite dom_singleton_L|]. right.
      destruct (error_record_fields m) as (-> & -> & -> & ->). by eauto.
    - split; [unfold output_record; by rewrite dom_singleton_L|]. left.
      destruct (output_record_fields data z output_dir) as (-> & -> & -> & _). by eauto. }
  assert (∀ data eo ze zs,
            (∃ m, reported_record output_dir data eo ze zs = error_record m) ∨
            (∃ data' z, reported_record output_dir data eo ze zs
                        = output_record data' z output_dir)) as Hreported.
  { intros data eo ze zs. unfold reported_record.
    destruct (error_messages _ _ _ _); by eauto. }
  run_cases MAX_PENDING_TIME env input_img output_dir w; rewrite Hrecs;
    eexists; (split; [done|]); apply Hshape; by eauto.
Qed.

(** X7: the record of a run holds the download reference
    [/download/<name of output_dir>/binwalk] exactly when the archive is
    delivered (the archiving tool was reached, exited with code 0, and the
    cleanup met no exception); in every other run it has no [download]
    key. *)
Theorem download_iff_archive_delivered :
  ∃ r, records_written MAX_PENDING_TIME env input_img output_dir w = [(output_dir, r)] ∧
       field r "download"
       = (if archive_delivered MAX_PENDING_TIME env input_img output_dir (fs w)
          then Some (JStr ("/download/" +:+ PyPath.name output_dir +:+ "/binwalk"))
          else None).
Proof.
  unfold archive_delivered.
  run_cases MAX_PENDING_TIME env input_img output_dir w; rewrite Hrecs;
    rewrite ?(bool_decide_eq_true_2 _ Hdir), ?(bool_decide_eq_false_2 _ Hdir),
      ?andb_false_r;
    cbn [andb]; eexists; (split; [done|]).
  - by destruct (error_record_fields (exc_str e)) as (_ & _ & _ & ->).
  - destruct (returncode zip_data =? 0) eqn:Hcode; cbn [andb].
    + rewrite reported_archive.
      by destruct (output_record_fields data true output_dir) as (_ & _ & _ & ->).
    + rewrite reported_archive_error.
      by destruct (error_record_fields
                     (if PyStr.truthy (stderr zip_data)
                      then "7z compression: " +:+ stderr zip_data
                      else "7z compression failed with no error output"))
        as (_ & _ & _ & ->).
  - by destruct (error_record_fields (exc_str e)) as (_ & _ & _ & ->).
  - destruct (decide (stderr data = "")) as [Hquiet|Hloud].
    + rewrite reported_nothing by done.
      by destruct (output_record_fields data false output_dir) as (_ & _ & _ & ->).
    + rewrite reported_extraction_error by done.
      by destruct (error_record_fields ("Binwalk: " +:+ stderr data)) as (_ & _ & _ & ->).
  - by destruct (error_record_fields (exc_str e)) as (_ & _ & _ & ->).
Qed.

(** X8: the exit code of the extraction tool is never looked at: with any
    other exit code in its place the run ends in the same state, with the
    same record. *)
Theorem extraction_exit_code_is_ignored code :
  analyze_binwalk MAX_PENDING_TIME
    (with_binwalk_returncode (PyPath.name input_img) code env) input_img output_dir w
  = analyze_binwalk MAX_PENDING_TIME env input_img output_dir w.
Proof.
  set (env' := with_binwalk_returncode (PyPath.name input_img) code env).
  assert (∀ files, child env' sevenzip_argv xdir MAX_PENDING_TIME files
                   = sevenzip_child files) as Hzip'.
  { intros files. subst env'. unfold with_binwalk_returncode. cbn [child].
    destruct (sevenzip_child files) as [r files'].
    by rewrite bool_decide_eq_false_2 by apply tools_differ. }
  assert (∀ files, cleanup_fault env' xdir files = cleanup_fault env xdir files)
    as Hclean' by done.
  assert (child env' (binwalk_argv (PyPath.name input_img)) output_dir
            MAX_PENDING_TIME (fs w)
          = match binwalk_child (fs w) with
            | (Returns data, fs1) =>
                (Returns (mkCompleted code (stdout data) (stderr data)), fs1)
            | (Raises e, fs1) => (Raises e, fs1)
            end) as Hbw'.
  { subst env'. unfold with_binwalk_returncode. cbn [child].
    destruct (binwalk_child (fs w)) as [[data|e] fs1];
      by rewrite bool_decide_eq_true_2. }
  destruct (binwalk_child (fs w)) as [[data|e] fs1] eqn:Hbw.
  - destruct (decide (xdir ∈ fs1)) as [Hdir|Hdir].
    + destruct (sevenzip_child fs1) as [[zip_data|e] fs2] eqn:Hzip.
      * destruct (cleanup_fault env xdir fs2) as [e|] eqn:Hclean.
        -- rewrite (run_cleanup_raises _ _ _ _ _ _ _ _ _ _ Hbw Hdir Hzip Hclean).
           apply (run_cleanup_raises _ env' _ _ _ _ fs1 zip_data fs2 e Hbw' Hdir);
             [by rewrite Hzip' | by rewrite Hclean'].
        -- rewrite (run_archived _ _ _ _ _ _ _ _ _ Hbw Hdir Hzip Hclean).
           by rewrite (run_archived _ env' _ _ _ _ fs1 zip_data fs2 Hbw' Hdir);
             [| by rewrite Hzip' | by rewrite Hclean'].
      * rewrite (run_archiving_raises _ _ _ _ _ _ _ _ _ Hbw Hdir Hzip).
        apply (run_archiving_raises _ env' _ _ _ _ fs1 e fs2 Hbw' Hdir).
        by rewrite Hzip'.
    + rewrite (run_nothing_extracted _ _ _ _ _ _ _ Hbw Hdir).
      by rewrite (run_nothing_extracted _ env' _ _ _ _ fs1 Hbw' Hdir).
  - rewrite (run_extraction_raises _ _ _ _ _ _ _ Hbw).
    by rewrite (run_extraction_raises _ env' _ _ _ _ fs1 Hbw').
Qed.

(** X10: the status of the record is [ok] exactly in the runs that end
    well: no call raises and either the archive is delivered or, with no
    extraction directory, the extraction tool wrote nothing on standard
    error; in every other run it is [error]. *)
Theorem status_iff_run_is_ok :
  ∃ r, records_written MAX_PENDING_TIME env input_img output_dir w = [(output_dir, r)] ∧
       field r "status"
       = Some (JStr (if run_is_ok MAX_PENDING_TIME env input_img output_dir (fs w) then "ok" else "error")).
Proof.
  unfold run_is_ok, archive_delivered.
  run_cases MAX_PENDING_TIME env input_img output_dir w; rewrite Hrecs;
    rewrite ?(bool_decide_eq_true_2 _ Hdir), ?(bool_decide_eq_false_2 _ Hdir);
    cbn [andb]; eexists; (split; [done|]).
  - rewrite andb_false_r. by destruct (error_record_fields (exc_str e)) as (-> & _).
  - destruct (returncode zip_data =? 0) eqn:Hcode; cbn [andb].
    + rewrite reported_archive.
      by destruct (output_record_fields data true output_dir) as (-> & _).
    + rewrite reported_archive_error.
      by destruct (error_record_fields
                     (if PyStr.truthy (stderr zip_data)
                      then "7z compression: " +:+ stderr zip_data
                      else "7z compression failed with no error output"))
        as (-> & _).
  - by destruct (error_record_fields (exc_str e)) as (-> & _).
  - destruct (decide (stderr data = "")) as [Hquiet|Hloud].
    + rewrite reported_nothing by done. rewrite Hquiet. cbn [PyStr.truthy negb].
      by destruct (output_record_fields data false output_dir) as (-> & _).
    + rewrite reported_extraction_error by done.
      apply truthy_spec in Hloud. rewrite Hloud. cbn [negb].
      by destruct (error_record_fields ("Binwalk: " +:+ stderr data)) as (-> & _).
  - by destruct (error_record_fields (exc_str e)) as (-> & _).
Qed.

(** X11: a run whose record has status [ok] leaves no extraction directory
    behind. *)
Theorem ok_record_means_directory_removed r :
  records_written MAX_PENDING_TIME env input_img output_dir w = [(output_dir, r)] →
  field r "status" = Some (JStr "ok") →
  xdir ∉ files_after MAX_PENDING_TIME env input_img output_dir w.
Proof.
  intros Hr Hok.
  assert (∀ m, r = error_record m → False) as Hnot_error.
  { intros m ->. by destruct (error_record_fields m) as (Herr & _); rewrite Herr in Hok. }
  run_cases MAX_PENDING_TIME env input_img output_dir w; rewrite Hfiles;
    rewrite Hrecs in Hr; injection Hr as Hr;
    try (by destruct (Hnot_error _ (eq_sym Hr))).
  - apply cleaned_gone.
  - done.
Qed.

End Further.

(** X9: the output of an ok record loses nothing of the standard output:
    its lines hold no line feed, there is one more line than there are line
    feeds (one empty line for an empty output), and joined by line feeds
    they give the standard output back. *)
Theorem output_lines_give_stdout_back data zip_exist output_dir :
  ∃ lines, field (output_record data zip_exist output_dir) "output" = Some (JList lines) ∧
           PyStr.join PyStr.nl lines = stdout data ∧
           List.length lines = S (PyStr.count PyStr.LF (stdout data)) ∧
           Forall (λ line, PyStr.count PyStr.LF line = O) lines.
Proof.
  exists (PyStr.split PyStr.LF (stdout data)).
  destruct (output_record_fields data zip_exist output_dir) as (_ & -> & _).
  split; [done|]. split; [apply join_split|].
  split; [apply split_length | apply split_pieces].
Qed.

(** ** The properties at concrete runs *)

Import Scenario.

(** At the run where [7z] exceeds its time limit after an extraction, the
    analyzer returns with [_cat.png.extracted] still in the job directory. *)
Lemma timeout_of_7z_leaves_extraction_directory :
  (analyze_binwalk MAX env_7z_timeout img job w0).1 = Returns tt ∧
  xdir ∈ files_after MAX env_7z_timeout img job w0 ∧
  records_written MAX env_7z_timeout img job w0
  = [(job, error_record (exc_str zp_timeout))].
Proof.
  apply (extraction_directory_left_when_archiving_raises MAX env_7z_timeout img job w0
           bw_clean (extracted env_7z_timeout) zp_timeout (archived env_7z_timeout));
    by_evaluation.
Defined.

(** C3, the claim as stated fails: the extraction directory was produced,
    [7z] exits with code 2 and nothing on standard error, no exception is
    met, and the message of the error record is not
    [archiving failed with no error output]. *)
Lemma quiet_archiving_failure_text_is_not_the_stated_text :
  (child env_7z_quiet (binwalk_argv (PyPath.name img)) job MAX (fs w0)).1
    = Returns bw_clean ∧
  xdir ∈ extracted env_7z_quiet ∧
  (child env_7z_quiet sevenzip_argv xdir MAX (extracted env_7z_quiet)).1
    = Returns zp_quiet ∧
  returncode zp_quiet ≠ 0 ∧
  stderr zp_quiet = "" ∧
  ∃ r, records_written MAX env_7z_quiet img job w0 = [(job, r)] ∧
       field r "status" = Some (JStr "error") ∧
       field r "error" ≠ Some (JStr "archiving failed with no error output").
Proof.
  do 5 (split; [by_evaluation|]).
  exists (error_record "7z compression failed with no error output").
  split; [by_evaluation|].
  destruct (error_record_fields "7z compression failed with no error output")
    as (-> & -> & _).
  split; [done | discriminate].
Qed.

Lemma quiet_archiving_failure_at_exit_2 :
  ∃ r, records_written MAX env_7z_quiet img job w0 = [(job, r)] ∧
       field r "status" = Some (JStr "error") ∧
       field r "error" = Some (JStr "7z compression failed with no error output") ∧
       field r "error" ≠ Some (JStr "7z compression: ").
Proof.
  apply (quiet_archiving_failure_reports_fixed_text MAX env_7z_quiet img job w0
           bw_clean (extracted env_7z_quiet) zp_quiet (archived env_7z_quiet));
    by_evaluation.
Defined.


Lemma unreadable_image_reports_binwalk_error :
  ∃ r, records_written MAX env_binwalk_fails img job w0 = [(job, r)] ∧
       field r "status" = Some (JStr "error") ∧
       field r "error" = Some (JStr "Binwalk: binwalk: cannot open ../cat.png").
Proof.
  apply (extraction_error_reports_tagged_stderr MAX env_binwalk_fails img job w0
           bw_failed (extracted env_binwalk_fails));
    by_evaluation.
Defined.

Lemma plain_scan_of_cat_png :
  ∃ r, records_written MAX env_plain img job w0 = [(job, r)] ∧
       field r "status" = Some (JStr "ok") ∧
       field r "output" = Some (JList ["DECIMAL       HEXADECIMAL"; "0             0x0"]) ∧
       field r "download" = None.
Proof.
  apply (plain_scan_reports_output_without_download MAX env_plain img job w0
           bw_clean (extracted env_plain));
    by_evaluation.
Defined.


(** [7z] is started after the extraction, exits with code 2 and leaves a
    partial [binwalk.7z]: the record is an error without download. *)
Lemma partial_archive_is_a_failure :
  ((sevenzip_argv, xdir) ∈ processes_spawned MAX env_7z_quiet img job w0
   ↔ xdir ∈ extracted env_7z_quiet) ∧
  job </> "binwalk.7z" ∈ archived env_7z_quiet ∧
  (archive_step MAX env_7z_quiet xdir true
     (mkWorld (extracted env_7z_quiet) [] [])).1 = Returns (false, "") ∧
  ∃ r, records_written MAX env_7z_quiet img job w0 = [(job, r)] ∧
       field r "status" = Some (JStr "error") ∧
       field r "download" = None.
Proof.
  assert (child env_7z_quiet (binwalk_argv (PyPath.name img)) job MAX (fs w0)
          = (Returns bw_clean, extracted env_7z_quiet)) as Hbw by by_evaluation.
  assert (xdir ∈ extracted env_7z_quiet) as Hdir by by_evaluation.
  assert (child env_7z_quiet sevenzip_argv xdir MAX (extracted env_7z_quiet)
          = (Returns zp_quiet, archived env_7z_quiet)) as Hzip by by_evaluation.
  destruct (archiving_runs_iff_extracted_and_succeeds_iff_exit_zero
              MAX env_7z_quiet img job w0 bw_clean (extracted env_7z_quiet) Hbw)
    as [Hiff Hexit].
  destruct (Hexit zp_quiet (archived env_7z_quiet) Hdir Hzip) as [Hflag Hrecord].
  split; [exact Hiff|]. split; [by_evaluation|].
  split; [exact (Hflag (mkWorld (extracted env_7z_quiet) [] []) eq_refl)|].
  apply Hrecord. by_evaluation.
Defined.


(** The archived run meets no exception and leaves no extraction directory. *)
Lemma archived_run_leaves_no_extraction_directory :
  xdir ∈ extracted env_archived ∧
  xdir ∉ files_after MAX env_archived img job w0.
Proof.
  split; [by_evaluation|].
  assert ((analyze_body MAX env_archived img job w0).1 = Returns tt) as Hreturns
    by (vm_compute; reflexivity).
  apply (extraction_directory_removed_without_exception MAX env_archived img job w0
           (analyze_body MAX env_archived img job w0).2).
  rewrite <- Hreturns. apply surjective_pairing.
Defined.

(** [binwalk] is not installed: one process, no cleanup, the error of the
    launch as the record. *)
Lemma missing_binwalk_is_reported :
  processes_spawned MAX env_binwalk_missing img job w0
  = [(binwalk_argv (PyPath.name img), job)] ∧
  files_after MAX env_binwalk_missing img job w0 = fs w0 ∧
  ∃ r, records_written MAX env_binwalk_missing img job w0 = [(job, r)] ∧
       field r "status" = Some (JStr "error") ∧
       field r "error" = Some (JStr "[Errno 2] No such file or directory: 'binwalk'") ∧
       field r "output" = None ∧
       field r "download" = None.
Proof.
  apply (failed_extraction_ends_the_run MAX env_binwalk_missing img job w0
           bw_missing (fs w0)).
  by_evaluation.
Defined.


(** The archived run reports [ok] and the extraction directory is gone. *)
Lemma archived_run_is_ok_and_clean :
  field (output_record bw_noisy true job) "status" = Some (JStr "ok") ∧
  xdir ∉ files_after MAX env_archived img job w0.
Proof.
  split; [by_evaluation|].
  apply (ok_record_means_directory_removed MAX env_archived img job w0
           (output_record bw_noisy true job)); by_evaluation.
Defined.
